(** * The Wikipedia page-view ETL pipeline (luigiscripts/wikipedia-luigi.py)

    A shallow embedding of the four luigi tasks of the script
    (extract, transform, copy to Redshift, cluster shutdown), of the way
    they are wired together by [requires], and of the values they hand to
    their collaborators: pig script names and parameter dictionaries,
    S3 locations, the Redshift table, its columns and its credentials. *)

From stdpp Require Import base strings gmap list relations.
From Stdlib Require Import ZArith Lia.

Local Open Scope string_scope.
Local Open Scope list_scope.

(** ** Python values and the helper function *)

(** The values of a pig parameter dictionary: the script stores strings
    (paths) and one integer (REDSHIFT_PARALLELIZATION). *)
Inductive pyvalue : Type :=
| PyStr (s : string)
| PyInt (z : Z).

#[global] Instance pyvalue_eq_dec : EqDecision pyvalue.
Proof. solve_decision. Defined.

(** [def create_full_path(base_path, sub_path): return '%s/%s' % (base_path, sub_path)] *)
Definition create_full_path (base_path sub_path : string) : string :=
  base_path +:+ "/" +:+ sub_path.

(** [MORTAR_PROJECT = 'mortar-etl-redshift-ddaniels'] *)
Definition MORTAR_PROJECT : string := "mortar-etl-redshift-ddaniels".

(** [luigi.s3.S3Target(path)]: a marker object in S3, known by its path. *)
Record S3Target : Type := mkS3Target { path : string }.

#[global] Instance S3Target_eq_dec : EqDecision S3Target.
Proof. solve_decision. Defined.

(** The module [mortar.luigi.mortartask] is imported, not defined, by the
    script; the one constant the script reads from it is a field here, so
    that every result holds for whatever value the library gives it. *)
Class mortartask : Type := { NUM_REDUCE_SLOTS_PER_MACHINE : Z }.

(** ** Pigscript tasks *)

(** [class WikipediaETLPigscriptTask(mortartask.MortarProjectPigscriptTask)].
    [cluster_size] is the integer parameter the base class of the library
    declares and the script reads as [self.cluster_size]; the two base
    paths are the [luigi.Parameter]s of the class body. *)
Module WikipediaETLPigscriptTask.

Record t : Type := mk {
  cluster_size : Z;
  input_base_path : string;
  output_base_path : string
}.

#[global] Instance eq_dec : EqDecision t.
Proof. solve_decision. Defined.

Definition project (self : t) : string := MORTAR_PROJECT.

Definition token_path (self : t) : string := output_base_path self.

Definition default_parallel `{mortartask} (self : t) : Z :=
  ((cluster_size self - 1) * NUM_REDUCE_SLOTS_PER_MACHINE)%Z.

Definition number_of_files `{mortartask} (self : t) : Z :=
  (2 * (cluster_size self - 1) * NUM_REDUCE_SLOTS_PER_MACHINE)%Z.

End WikipediaETLPigscriptTask.

(** [class ExtractWikipediaDataTask(WikipediaETLPigscriptTask)] *)
Module ExtractWikipediaDataTask.

Abbreviation t := WikipediaETLPigscriptTask.t (only parsing).

(* inherited from the base class *)
Definition default_parallel `{mortartask} (self : t) : Z :=
  WikipediaETLPigscriptTask.default_parallel self.

Definition number_of_files `{mortartask} (self : t) : Z :=
  WikipediaETLPigscriptTask.number_of_files self.

Definition script_output (self : t) : list S3Target :=
  [mkS3Target
     (create_full_path (WikipediaETLPigscriptTask.output_base_path self) "extract")].

(* the dictionary literal, its keys inserted in the order they are written *)
Definition parameters (self : t) : gmap string pyvalue :=
  <["INPUT_PATH" := PyStr (WikipediaETLPigscriptTask.input_base_path self)]>
    (<["OUTPUT_PATH" := PyStr (WikipediaETLPigscriptTask.output_base_path self)]> ∅).

Definition script (self : t) : string := "01-wiki-extract-data.pig".

End ExtractWikipediaDataTask.

(** [class TransformWikipediaDataTask(WikipediaETLPigscriptTask)] *)
Module TransformWikipediaDataTask.

Abbreviation t := WikipediaETLPigscriptTask.t (only parsing).

(* inherited from the base class *)
Definition default_parallel `{mortartask} (self : t) : Z :=
  WikipediaETLPigscriptTask.default_parallel self.

(* the override of the class *)
Definition number_of_files `{mortartask} (self : t) : Z :=
  (2 * (WikipediaETLPigscriptTask.cluster_size self - 1)
     * NUM_REDUCE_SLOTS_PER_MACHINE)%Z.

Definition script_output (self : t) : list S3Target :=
  [mkS3Target
     (create_full_path (WikipediaETLPigscriptTask.output_base_path self) "transform")].

Definition parameters `{mortartask} (self : t) : gmap string pyvalue :=
  <["REDSHIFT_PARALLELIZATION" := PyInt (number_of_files self)]>
    (<["INPUT_PATH" := PyStr (WikipediaETLPigscriptTask.input_base_path self)]>
       (<["OUTPUT_PATH" := PyStr (WikipediaETLPigscriptTask.output_base_path self)]> ∅)).

Definition script (self : t) : string := "02-wiki-transform-data.pig".

(* [ExtractWikipediaDataTask(self.cluster_size, input_base_path=...,
   output_base_path=...)]: the positional argument is the cluster size *)
Definition requires (self : t) : ExtractWikipediaDataTask.t :=
  {| WikipediaETLPigscriptTask.cluster_size :=
       WikipediaETLPigscriptTask.cluster_size self;
     WikipediaETLPigscriptTask.input_base_path :=
       WikipediaETLPigscriptTask.input_base_path self;
     WikipediaETLPigscriptTask.output_base_path :=
       WikipediaETLPigscriptTask.output_base_path self |}.

End TransformWikipediaDataTask.

(** ** The configuration source

  [luigi.configuration] is a collaborator of the script.  What the script
  does with it is observable as a sequence of events: a call of
  [get_config()] and, on the object it returns, calls of
  [config.get(section, option)].  Computations that touch the
  configuration thread that trace and may raise. *)
Module configuration.

Inductive event : Type :=
| GetConfig
| Get (section opt : string).

#[global] Instance event_eq_dec : EqDecision event.
Proof. solve_decision. Defined.

Inductive exn : Type :=
| NoOptionError (section opt : string)
| KeyError (key : string).

Inductive result (A : Type) : Type :=
| Ok (a : A)
| Raise (e : exn).
Arguments Ok {A} a.
Arguments Raise {A} e.

(** The parsed configuration file maps (section, option) to a value.  A
    computation reads it, extends the trace and returns or raises. *)
Definition M (A : Type) : Type :=
  gmap (string * string) string -> list event -> result A * list event.

#[global] Instance M_ret : MRet M := fun A a _ tr => (Ok a, tr).

#[global] Instance M_bind : MBind M := fun A B f m cfg tr =>
  match m cfg tr with
  | (Ok a, tr') => f a cfg tr'
  | (Raise e, tr') => (Raise e, tr')
  end.

(** [configuration.get_config()] *)
Definition get_config : M (gmap (string * string) string) :=
  fun cfg tr => (Ok cfg, tr ++ [GetConfig]).

(** [config.get(section, option)] *)
Definition get (config : gmap (string * string) string) (section opt : string)
  : M string :=
  fun _ tr =>
    (match config !! (section, opt) with
     | Some v => Ok v
     | None => Raise (NoOptionError section opt)
     end, tr ++ [Get section opt]).

(** [d[key]] on a dictionary of strings *)
Definition getitem (d : gmap string string) (key : string) : M string :=
  fun _ tr =>
    (match d !! key with
     | Some v => Ok v
     | None => Raise (KeyError key)
     end, tr).

(** How often [config.get(section, opt)] occurs in a trace. *)
Definition reads_of (section opt : string) (tr : list event) : nat :=
  length (filter (fun e => e = Get section opt) tr).

(** How often the configuration was touched at all. *)
Definition reads (tr : list event) : nat :=
  length (filter (fun e => e <> GetConfig) tr).

End configuration.


(** ** The load task *)

(** [class CopyToRedshiftTask(redshift.S3CopyToTable)] *)
Module CopyToRedshiftTask.
Import configuration.

Record t : Type := mk {
  table_name : string;
  output_base_path : string;
  (* not used but required for dependent tasks *)
  input_base_path : string
}.

#[global] Instance eq_dec : EqDecision t.
Proof. solve_decision. Defined.

(** Instantiating the class, as [ShutdownClusters.requires] does.  The class
    defines no constructor and its body declares three parameters and the
    column list; nothing of it touches the configuration. *)
Definition construct (input_base_path output_base_path table_name : string) : M t :=
  mret {| table_name := table_name;
          output_base_path := output_base_path;
          input_base_path := input_base_path |}.

(** The class attribute [columns]. *)
Definition columns : list (string * string) :=
  [ ("wiki_code", "text");
    ("language", "text");
    ("wiki_type", "text");
    ("article", "varchar(max)");
    ("day", "int");
    ("hour", "int");
    ("pageviews", "int");
    ("PRIMARY KEY", "(article, day, hour)") ].

Definition requires (self : t) : TransformWikipediaDataTask.t :=
  {| WikipediaETLPigscriptTask.cluster_size := 5;
     WikipediaETLPigscriptTask.input_base_path := input_base_path self;
     WikipediaETLPigscriptTask.output_base_path := output_base_path self |}.

Definition redshift_credentials (self : t) : M (gmap string string) :=
  config ← get_config;
  let section := "redshift" in
  host ← get config section "host";
  port ← get config section "port";
  database ← get config section "database";
  username ← get config section "username";
  password ← get config section "password";
  aws_access_key_id ← get config section "aws_access_key_id";
  aws_secret_access_key ← get config section "aws_secret_access_key";
  mret (<["aws_secret_access_key" := aws_secret_access_key]>
       (<["aws_access_key_id" := aws_access_key_id]>
       (<["password" := password]>
       (<["username" := username]>
       (<["database" := database]>
       (<["port" := port]>
       (<["host" := host]> ∅))))))).

Definition transform_path (self : t) : string :=
  create_full_path (output_base_path self) "transform".

Definition s3_load_path (self : t) : string :=
  create_full_path (transform_path self) "part".

(** The properties: each one calls [redshift_credentials()] afresh. *)
Definition aws_access_key_id (self : t) : M string :=
  d ← redshift_credentials self; getitem d "aws_access_key_id".

Definition aws_secret_access_key (self : t) : M string :=
  d ← redshift_credentials self; getitem d "aws_secret_access_key".

Definition database (self : t) : M string :=
  d ← redshift_credentials self; getitem d "database".

Definition user (self : t) : M string :=
  d ← redshift_credentials self; getitem d "username".

Definition password (self : t) : M string :=
  d ← redshift_credentials self; getitem d "password".

Definition host (self : t) : M string :=
  d1 ← redshift_credentials self;
  h ← getitem d1 "host";
  d2 ← redshift_credentials self;
  p ← getitem d2 "port";
  mret ((h +:+ ":") +:+ p).

Definition table (self : t) : string := table_name self.

Definition copy_options (self : t) : string := "GZIP".

End CopyToRedshiftTask.

(** ** The shutdown task *)

(** [class ShutdownClusters(mortartask.MortarClusterShutdownTask)] *)
Module ShutdownClusters.

Record t : Type := mk {
  (* unused, but must be passed through *)
  input_base_path : string;
  table_name : string;
  output_base_path : string
}.

#[global] Instance eq_dec : EqDecision t.
Proof. solve_decision. Defined.

(** [self.__class__.__name__], for an instance of this class. *)
Definition class_name : string := "ShutdownClusters".

Definition requires (self : t) : list CopyToRedshiftTask.t :=
  [{| CopyToRedshiftTask.input_base_path := input_base_path self;
      CopyToRedshiftTask.output_base_path := output_base_path self;
      CopyToRedshiftTask.table_name := table_name self |}].

Definition output (self : t) : list S3Target :=
  [mkS3Target (create_full_path (output_base_path self) class_name)].

End ShutdownClusters.

(** ** What one call of [redshift_credentials()] asks of the configuration *)

(** The options of section [redshift] that [redshift_credentials] reads, in
    the order of the dictionary literal. *)
Definition credential_options : list string :=
  ["host"; "port"; "database"; "username"; "password";
   "aws_access_key_id"; "aws_secret_access_key"].

(** The events of one call: [get_config()], then one [config.get] for each
    option. *)
Definition credential_reads : list configuration.event :=
  configuration.GetConfig :: (configuration.Get "redshift" <$> credential_options).

(** A configuration that has all of them. *)
Definition configured (cfg : gmap (string * string) string) : Prop :=
  forall opt, opt ∈ credential_options -> is_Some (cfg !! ("redshift", opt)).

(** What a lookup of an option that is there gives. *)
Definition from_config (cfg : gmap (string * string) string) (opt : string)
  : configuration.result string :=
  match cfg !! ("redshift", opt) with
  | Some v => configuration.Ok v
  | None => configuration.Raise (configuration.NoOptionError "redshift" opt)
  end.

(** A configuration file to try things on. *)
Definition example_config : gmap (string * string) string :=
  list_to_map
    [ (("redshift", "host"), "example.redshift.amazonaws.com");
      (("redshift", "port"), "5439");
      (("redshift", "database"), "wiki");
      (("redshift", "username"), "master");
      (("redshift", "password"), "secret");
      (("redshift", "aws_access_key_id"), "AKIDEXAMPLE");
      (("redshift", "aws_secret_access_key"), "SECRETKEYEXAMPLE") ].

(** ** The tasks of the script as one type *)

(** A task is an instance of one of the four concrete classes; two tasks
    are the same when class and parameters agree. *)
Inductive task : Type :=
| extract (self : ExtractWikipediaDataTask.t)
| transform (self : TransformWikipediaDataTask.t)
| copy (self : CopyToRedshiftTask.t)
| shutdown (self : ShutdownClusters.t).

#[global] Instance task_eq_dec : EqDecision task.
Proof. solve_decision. Defined.

(** What [requires()] of a task yields, flattened to a list.
    [ExtractWikipediaDataTask] does not define [requires] and neither does
    a class of the script above it: it asks for nothing. *)
Definition requires (t : task) : list task :=
  match t with
  | extract _ => []
  | transform self => [extract (TransformWikipediaDataTask.requires self)]
  | copy self => [transform (CopyToRedshiftTask.requires self)]
  | shutdown self => copy <$> ShutdownClusters.requires self
  end.

(** The base paths every class declares as parameters. *)
Definition input_base_path (t : task) : string :=
  match t with
  | extract self | transform self => WikipediaETLPigscriptTask.input_base_path self
  | copy self => CopyToRedshiftTask.input_base_path self
  | shutdown self => ShutdownClusters.input_base_path self
  end.

Definition output_base_path (t : task) : string :=
  match t with
  | extract self | transform self => WikipediaETLPigscriptTask.output_base_path self
  | copy self => CopyToRedshiftTask.output_base_path self
  | shutdown self => ShutdownClusters.output_base_path self
  end.

(** The cluster size of a pigscript task; the other two classes have none. *)
Definition cluster_size (t : task) : option Z :=
  match t with
  | extract self | transform self => Some (WikipediaETLPigscriptTask.cluster_size self)
  | copy _ | shutdown _ => None
  end.

(** The graph of a root task: everything [requires] leads to. *)
Definition in_graph (root t : task) : Prop :=
  rtc (fun a b => b ∈ requires a) root t.

(** The tasks [requires] leads to from a root, named after the docstring's
    TaskOrder: the load task the root asks for, the transform task the
    load task asks for, the extract task the transform task asks for. *)
Definition the_copy (root : ShutdownClusters.t) : CopyToRedshiftTask.t :=
  {| CopyToRedshiftTask.table_name := ShutdownClusters.table_name root;
     CopyToRedshiftTask.output_base_path := ShutdownClusters.output_base_path root;
     CopyToRedshiftTask.input_base_path := ShutdownClusters.input_base_path root |}.

Definition the_transform (root : ShutdownClusters.t) : TransformWikipediaDataTask.t :=
  CopyToRedshiftTask.requires (the_copy root).

Definition the_extract (root : ShutdownClusters.t) : ExtractWikipediaDataTask.t :=
  TransformWikipediaDataTask.requires (the_transform root).

Definition chain (root : ShutdownClusters.t) : list task :=
  [extract (the_extract root); transform (the_transform root);
   copy (the_copy root); shutdown root].

(** ** The command line *)

(** Modelled from the spec: the named parameters of the runner's command
    line, [--input-base-path], [--output-base-path], [--table-name] and
    the optional [--cluster-size]; the parser itself belongs to luigi and
    is not part of the script. *)
Record command_line : Type := {
  arg_input_base_path : string;
  arg_output_base_path : string;
  arg_table_name : string;
  arg_cluster_size : option Z
}.

(** [luigi.run(main_task_cls=ShutdownClusters)]: the root is an instance of
    the main class, which declares [input_base_path], [table_name] and
    [output_base_path] and nothing else. *)
Definition main_task (argv : command_line) : ShutdownClusters.t :=
  {| ShutdownClusters.input_base_path := arg_input_base_path argv;
     ShutdownClusters.table_name := arg_table_name argv;
     ShutdownClusters.output_base_path := arg_output_base_path argv |}.

(** ** The engine underneath

    The script leaves graph construction and execution to luigi.  The
    engine below is the one the specification describes, generic in the
    type of tasks and of targets. *)
Module Engine.
Section Engine.

Context {T Tg : Type} `{!EqDecision T, !EqDecision Tg}.

(** [dependencies()] and [outputs()] of a task, and what the external
    runner answers when the task's action is invoked: [None] for success,
    [Some cause] for a failure. *)
Variable dependencies : T -> list T.
Variable outputs : T -> list Tg.
Variable action : T -> option string.

(** Modelled from the spec: what [build] answers, the topological order or
    a [CycleError] with the path; [OutOfFuel] when the traversal was not
    allowed to go deep enough. *)
Inductive build_result : Type :=
| Built (order : list T)
| CycleError (path : list T)
| OutOfFuel.

(** Modelled from the spec: the Graph Builder's depth-first traversal.
    [stack] is the current traversal stack, [order] the nodes built so far,
    dependencies before dependents.  A task found on the stack is a cycle;
    a task already in [order] is reused; otherwise its dependencies are
    visited in declaration order and the task is placed after them. *)
Fixpoint visit (fuel : nat) (stack order : list T) (t : T) : build_result :=
  match fuel with
  | O => OutOfFuel
  | S fuel' =>
      if decide (t ∈ stack) then CycleError (reverse (t :: stack))
      else if decide (t ∈ order) then Built order
      else
        match
          foldl (fun acc d =>
                   match acc with
                   | Built o => visit fuel' (t :: stack) o d
                   | failure => failure
                   end)
                (Built order) (dependencies t)
        with
        | Built o => Built (o ++ [t])
        | failure => failure
        end
  end.

(** Modelled from the spec: [build(root)], the topological order of the
    graph of [root]. *)
Definition build (fuel : nat) (root : T) : build_result :=
  visit fuel [] [] root.

(** Modelled from the spec: the outcome of one task. *)
Inductive ExecutionResult : Type :=
| Pending
| Skipped
| Succeeded
| Failed (cause : string).

(** Modelled from the spec: the mutable state of one run, owned by the
    Executor: the result of each task in the order it was settled, the
    targets that exist, and the actions invoked so far. *)
Record run_state : Type := {
  results : list (T * ExecutionResult);
  store : list Tg;
  invoked : list T
}.

(** Modelled from the spec: [isComplete()], all declared outputs exist. *)
Definition isComplete (existing : list Tg) (t : T) : bool :=
  forallb (fun o => bool_decide (o ∈ existing)) (outputs t).

(** Modelled from the spec: the result recorded for a task, [Pending]
    while there is none. *)
Definition result_of (rs : list (T * ExecutionResult)) (t : T) : ExecutionResult :=
  match list_find (fun r => r.1 = t) rs with
  | Some (_, (_, r)) => r
  | None => Pending
  end.

(** Modelled from the spec: the cause of the first failed dependency, if
    there is one. *)
Definition failed_dependency (rs : list (T * ExecutionResult)) (t : T)
  : option string :=
  head (omap (fun d => match result_of rs d with
                        | Failed cause => Some cause
                        | _ => None
                        end) (dependencies t)).

(** Modelled from the spec: one task of the Executor's state machine.  A
    complete task is skipped; a task with a failed dependency fails
    without being invoked; otherwise its action is invoked, and a
    successful action leaves the task's outputs in the marker store. *)
Definition step (s : run_state) (t : T) : run_state :=
  if isComplete (store s) t then
    {| results := results s ++ [(t, Skipped)];
       store := store s; invoked := invoked s |}
  else
    match failed_dependency (results s) t with
    | Some cause =>
        {| results := results s ++ [(t, Failed cause)];
           store := store s; invoked := invoked s |}
    | None =>
        match action t with
        | None =>
            {| results := results s ++ [(t, Succeeded)];
               store := store s ++ outputs t;
               invoked := invoked s ++ [t] |}
        | Some cause =>
            {| results := results s ++ [(t, Failed cause)];
               store := store s;
               invoked := invoked s ++ [t] |}
        end
    end.

(** Modelled from the spec: [execute(graph)], the tasks settled in
    topological order, starting from the targets that exist already. *)
Definition execute (graph : list T) (existing : list Tg) : run_state :=
  foldl step {| results := []; store := existing; invoked := [] |} graph.

(** Modelled from the spec: building the graph of [root] and executing it;
    nothing is executed when the graph builder fails. *)
Definition run (fuel : nat) (root : T) (existing : list Tg) : option run_state :=
  match build fuel root with
  | Built graph => Some (execute graph existing)
  | _ => None
  end.

End Engine.
End Engine.

(** Modelled from the spec: a target of the pipeline, an object in S3 or
    the marker of a finished load. *)
Inductive Target : Type :=
| S3 (target : S3Target)
| LoadMarker (self : CopyToRedshiftTask.t).

#[global] Instance Target_eq_dec : EqDecision Target.
Proof. solve_decision. Defined.

(** Modelled from the spec: the declared outputs of each task.  The pig
    tasks declare [script_output()] and the shutdown task [output()]; the
    output of the load task is declared by [redshift.S3CopyToTable], which
    the script does not contain, and is kept as a marker of its own. *)
Definition outputs (t : task) : list Target :=
  match t with
  | extract self => S3 <$> ExtractWikipediaDataTask.script_output self
  | transform self => S3 <$> TransformWikipediaDataTask.script_output self
  | copy self => [LoadMarker self]
  | shutdown self => S3 <$> ShutdownClusters.output self
  end.

(** Modelled from the spec: the pipeline run from a root task by that
    engine. *)
Definition run_pipeline (action : task -> option string) (fuel : nat)
    (root : ShutdownClusters.t) (existing : list Target)
  : option (Engine.run_state (T := task) (Tg := Target)) :=
  Engine.run requires outputs action fuel (shutdown root) existing.

(** The options one call of [redshift_credentials()] reads from a given
    configuration: those of the dictionary literal in their order, up to
    and including the first one that is missing, where the call raises. *)
Fixpoint options_read (cfg : gmap (string * string) string) (opts : list string)
  : list string :=
  match opts with
  | [] => []
  | opt :: rest =>
      opt :: match cfg !! ("redshift", opt) with
             | Some _ => options_read cfg rest
             | None => []
             end
  end.

(** The events of one call on a given configuration: [get_config()], then
    one [config.get] for each option read. *)
Definition call_reads (cfg : gmap (string * string) string)
  : list configuration.event :=
  configuration.GetConfig
    :: (configuration.Get "redshift" <$> options_read cfg credential_options).

(** How far a task stands from the bottom of the docstring's TaskOrder:
    the extract task is at 0 and the shutdown task at 3. *)
Definition depth (t : task) : nat :=
  match t with
  | extract _ => 0
  | transform _ => 1
  | copy _ => 2
  | shutdown _ => 3
  end.

(** The accessors of the load task that go through [redshift_credentials]. *)
Definition credential_properties
  : list (CopyToRedshiftTask.t -> configuration.M string) :=
  [CopyToRedshiftTask.aws_access_key_id; CopyToRedshiftTask.aws_secret_access_key;
   CopyToRedshiftTask.database; CopyToRedshiftTask.user;
   CopyToRedshiftTask.password; CopyToRedshiftTask.host].

(** * Properties *)

(** ** Strings and paths *)

Lemma append_assoc (a b c : string) : (a +:+ b) +:+ c = a +:+ (b +:+ c).
Proof.
  induction a as [|x a IH]; [reflexivity |].
  change (String x ((a +:+ b) +:+ c) = String x (a +:+ (b +:+ c))).
  by rewrite IH.
Qed.

Lemma create_full_path_inj (base_path s1 s2 : string) :
  create_full_path base_path s1 = create_full_path base_path s2 -> s1 = s2.
Proof.
  unfold create_full_path. intros Heq.
  apply (inj (String.append base_path)) in Heq. by simplify_eq/=.
Qed.

Lemma create_full_path_nested (base_path s1 s2 : string) :
  create_full_path (create_full_path base_path s1) s2
  = base_path +:+ "/" +:+ s1 +:+ "/" +:+ s2.
Proof. unfold create_full_path. by rewrite !append_assoc. Qed.

(** ** File counts *)

(** C3: the number_of_files of the base class and the override of
    TransformWikipediaDataTask give the same number for every cluster
    size, namely 2 * (cluster_size - 1) * NUM_REDUCE_SLOTS_PER_MACHINE. *)
Theorem number_of_files_override_agrees `{mortartask}
    (self : WikipediaETLPigscriptTask.t) :
  TransformWikipediaDataTask.number_of_files self
  = WikipediaETLPigscriptTask.number_of_files self
  /\ WikipediaETLPigscriptTask.number_of_files self
     = (2 * (WikipediaETLPigscriptTask.cluster_size self - 1)
          * NUM_REDUCE_SLOTS_PER_MACHINE)%Z.
Proof.
  destruct self as [size i o].
  unfold TransformWikipediaDataTask.number_of_files,
    WikipediaETLPigscriptTask.number_of_files.
  split; reflexivity.
Qed.

(** C9: on WikipediaETLPigscriptTask, number_of_files() is twice
    default_parallel(), for every cluster size. *)
Theorem number_of_files_twice_default_parallel `{mortartask}
    (self : WikipediaETLPigscriptTask.t) :
  WikipediaETLPigscriptTask.number_of_files self
  = (2 * WikipediaETLPigscriptTask.default_parallel self)%Z.
Proof.
  unfold WikipediaETLPigscriptTask.number_of_files,
    WikipediaETLPigscriptTask.default_parallel.
  generalize (WikipediaETLPigscriptTask.cluster_size self),
    NUM_REDUCE_SLOTS_PER_MACHINE.
  intros size slots. lia.
Qed.

(** ** Locations *)

(** C4: the path the load task copies from is the location of the one
    target its dependency, the transform task, declares, followed by
    /part; that is output_base_path/transform/part. *)
Theorem s3_load_path_is_transform_output (self : CopyToRedshiftTask.t) :
  exists target : S3Target,
    TransformWikipediaDataTask.script_output (CopyToRedshiftTask.requires self)
    = [target]
    /\ CopyToRedshiftTask.s3_load_path self = path target +:+ "/part"
    /\ CopyToRedshiftTask.s3_load_path self
       = CopyToRedshiftTask.output_base_path self +:+ "/transform/part".
Proof.
  eexists. split; [reflexivity |].
  unfold CopyToRedshiftTask.s3_load_path, CopyToRedshiftTask.transform_path.
  simpl. split.
  - reflexivity.
  - by rewrite create_full_path_nested.
Qed.



(** ** What the pig tasks hand to the job runner *)

(** C7: the extract task names the script 01-wiki-extract-data.pig and
    passes exactly OUTPUT_PATH = output_base_path and INPUT_PATH =
    input_base_path; the transform task names 02-wiki-transform-data.pig
    and passes those two and REDSHIFT_PARALLELIZATION = number_of_files(),
    for every input_base_path, output_base_path and cluster_size. *)
Theorem pigscript_invocations `{mortartask} (self : WikipediaETLPigscriptTask.t) :
  let i := WikipediaETLPigscriptTask.input_base_path self in
  let o := WikipediaETLPigscriptTask.output_base_path self in
  (ExtractWikipediaDataTask.script self = "01-wiki-extract-data.pig"
   /\ ExtractWikipediaDataTask.parameters self
      = {[ "OUTPUT_PATH" := PyStr o; "INPUT_PATH" := PyStr i ]}
   /\ dom (ExtractWikipediaDataTask.parameters self)
      = ({[ "OUTPUT_PATH"; "INPUT_PATH" ]} : gset string))
  /\ (TransformWikipediaDataTask.script self = "02-wiki-transform-data.pig"
      /\ TransformWikipediaDataTask.parameters self
         = {[ "OUTPUT_PATH" := PyStr o; "INPUT_PATH" := PyStr i;
              "REDSHIFT_PARALLELIZATION" :=
                PyInt (TransformWikipediaDataTask.number_of_files self) ]}
      /\ dom (TransformWikipediaDataTask.parameters self)
         = ({[ "OUTPUT_PATH"; "INPUT_PATH"; "REDSHIFT_PARALLELIZATION" ]}
            : gset string)).
Proof.
  intros i o.
  unfold ExtractWikipediaDataTask.parameters, TransformWikipediaDataTask.parameters.
  fold i o. split_and!; [reflexivity | | | reflexivity | |].
  - apply map_eq. intros k.
    destruct (decide (k = "INPUT_PATH")) as [->|]; [by simplify_map_eq |].
    destruct (decide (k = "OUTPUT_PATH")) as [->|]; by simplify_map_eq.
  - rewrite !dom_insert_L, dom_empty_L. set_solver.
  - apply map_eq. intros k.
    destruct (decide (k = "REDSHIFT_PARALLELIZATION")) as [->|]; [by simplify_map_eq |].
    destruct (decide (k = "INPUT_PATH")) as [->|]; [by simplify_map_eq |].
    destruct (decide (k = "OUTPUT_PATH")) as [->|]; by simplify_map_eq.
  - rewrite !dom_insert_L, dom_empty_L. set_solver.
Qed.

(** ** The dependency graph *)

Lemma requires_shutdown (self : ShutdownClusters.t) (t : task) :
  t ∈ requires (shutdown self)
  <-> t = copy (CopyToRedshiftTask.mk (ShutdownClusters.table_name self)
                  (ShutdownClusters.output_base_path self)
                  (ShutdownClusters.input_base_path self)).
Proof. simpl. by rewrite list_elem_of_singleton. Qed.

Lemma requires_copy (self : CopyToRedshiftTask.t) (t : task) :
  t ∈ requires (copy self)
  <-> t = transform (WikipediaETLPigscriptTask.mk 5
                       (CopyToRedshiftTask.input_base_path self)
                       (CopyToRedshiftTask.output_base_path self)).
Proof. simpl. by rewrite list_elem_of_singleton. Qed.

Lemma requires_transform (self : TransformWikipediaDataTask.t) (t : task) :
  t ∈ requires (transform self)
  <-> t = extract (WikipediaETLPigscriptTask.mk
                     (WikipediaETLPigscriptTask.cluster_size self)
                     (WikipediaETLPigscriptTask.input_base_path self)
                     (WikipediaETLPigscriptTask.output_base_path self)).
Proof. simpl. by rewrite list_elem_of_singleton. Qed.

Lemma requires_extract (self : ExtractWikipediaDataTask.t) (t : task) :
  t ∈ requires (extract self) <-> False.
Proof. simpl. by rewrite elem_of_nil. Qed.

(** One step along [requires] keeps both base paths. *)
Lemma requires_keeps_base_paths (a b : task) :
  b ∈ requires a ->
  input_base_path b = input_base_path a
  /\ output_base_path b = output_base_path a.
Proof.
  destruct a as [self|self|self|self]; intros Hb.
  - by apply requires_extract in Hb.
  - apply requires_transform in Hb as ->. by split.
  - apply requires_copy in Hb as ->. by split.
  - apply requires_shutdown in Hb as ->. by split.
Qed.

(** The graph of a root is its chain, no more and no less. *)
Lemma in_graph_chain (root : ShutdownClusters.t) (t : task) :
  in_graph (shutdown root) t <-> t ∈ chain root.
Proof.
  unfold in_graph, chain. split.
  - intros Hrtc.
    apply rtc_inv in Hrtc as [<- | (c & Hc & Hrtc)]; [set_solver |].
    apply requires_shutdown in Hc as ->.
    apply rtc_inv in Hrtc as [<- | (tr & Htr & Hrtc)]; [set_solver |].
    apply requires_copy in Htr as ->.
    apply rtc_inv in Hrtc as [<- | (ex & Hex & Hrtc)]; [set_solver |].
    apply requires_transform in Hex as ->.
    apply rtc_inv in Hrtc as [<- | (no & Hno & _)]; [set_solver |].
    by apply requires_extract in Hno.
  - intros Hin.
    assert (Hc : copy (the_copy root) ∈ requires (shutdown root))
      by by apply requires_shutdown.
    assert (Htr : transform (the_transform root) ∈ requires (copy (the_copy root)))
      by by apply requires_copy.
    assert (Hex : extract (the_extract root) ∈ requires (transform (the_transform root)))
      by by apply requires_transform.
    repeat (apply elem_of_cons in Hin as [-> | Hin]); [| | | | by apply elem_of_nil in Hin].
    + eapply rtc_l; [exact Hc |]. eapply rtc_l; [exact Htr |]. by apply rtc_once.
    + eapply rtc_l; [exact Hc |]. by apply rtc_once.
    + by apply rtc_once.
    + reflexivity.
Qed.

(** C10: every task in the graph of the root
    ShutdownClusters(input_base_path=i, output_base_path=o, table_name=t)
    carries input_base_path = i and output_base_path = o. *)
Theorem base_paths_propagate (i o t : string) (node : task) :
  in_graph (shutdown {| ShutdownClusters.input_base_path := i;
                        ShutdownClusters.table_name := t;
                        ShutdownClusters.output_base_path := o |}) node ->
  input_base_path node = i /\ output_base_path node = o.
Proof.
  unfold in_graph. revert node. apply rtc_ind_r.
  - by split.
  - intros a b _ Hab [<- <-]. by apply requires_keeps_base_paths.
Qed.

Lemma base_paths_propagate_witness :
  let node := extract {| WikipediaETLPigscriptTask.cluster_size := 5;
                         WikipediaETLPigscriptTask.input_base_path := "s3://in";
                         WikipediaETLPigscriptTask.output_base_path := "s3://out" |} in
  in_graph (shutdown {| ShutdownClusters.input_base_path := "s3://in";
                        ShutdownClusters.table_name := "pageviews";
                        ShutdownClusters.output_base_path := "s3://out" |}) node
  /\ input_base_path node = "s3://in"
  /\ output_base_path node = "s3://out".
Proof.
  intros node.
  assert (Hnode : in_graph
                    (shutdown {| ShutdownClusters.input_base_path := "s3://in";
                                 ShutdownClusters.table_name := "pageviews";
                                 ShutdownClusters.output_base_path := "s3://out" |})
                    node).
  { eapply rtc_l; [by apply list_elem_of_singleton |].
    eapply rtc_l; [by apply list_elem_of_singleton |].
    eapply rtc_l; [by apply list_elem_of_singleton |].
    reflexivity. }
  split; [exact Hnode |].
  exact (base_paths_propagate "s3://in" "s3://out" "pageviews" node Hnode).
Defined.

(** ** Cluster sizing *)

(** C2, as stated, fails: with --cluster-size 2 on the command line the
    transform task of the graph still has cluster size 5. *)
Lemma cluster_size_not_from_command_line :
  let argv := {| arg_input_base_path := "s3://in";
                 arg_output_base_path := "s3://out";
                 arg_table_name := "pageviews";
                 arg_cluster_size := Some 2%Z |} in
  let t := transform {| WikipediaETLPigscriptTask.cluster_size := 5;
                        WikipediaETLPigscriptTask.input_base_path := "s3://in";
                        WikipediaETLPigscriptTask.output_base_path := "s3://out" |} in
  in_graph (shutdown (main_task argv)) t
  /\ cluster_size t = Some 5%Z
  /\ cluster_size t <> arg_cluster_size argv.
Proof.
  intros argv t. split; [| split; [reflexivity | discriminate]].
  apply in_graph_chain. unfold chain. set_solver.
Qed.

(** C2, amended: whatever the command line holds, the root is built from
    input_base_path, table_name and output_base_path alone, and every
    extract or transform task of the resulting graph has cluster size 5,
    the constant of CopyToRedshiftTask.requires. *)
Theorem cluster_size_is_five (argv : command_line) (t : task) (size : Z) :
  in_graph (shutdown (main_task argv)) t ->
  cluster_size t = Some size ->
  size = 5%Z
  /\ main_task argv
     = {| ShutdownClusters.input_base_path := arg_input_base_path argv;
          ShutdownClusters.table_name := arg_table_name argv;
          ShutdownClusters.output_base_path := arg_output_base_path argv |}.
Proof.
  intros Hin Hsize. split; [| reflexivity].
  apply in_graph_chain in Hin. unfold chain in Hin.
  repeat (apply elem_of_cons in Hin as [-> | Hin]);
    [| | | | by apply elem_of_nil in Hin];
    simpl in Hsize; congruence.
Qed.

Lemma cluster_size_is_five_witness :
  let argv := {| arg_input_base_path := "s3://in";
                 arg_output_base_path := "s3://out";
                 arg_table_name := "pageviews";
                 arg_cluster_size := Some 9%Z |} in
  let node := extract {| WikipediaETLPigscriptTask.cluster_size := 5;
                         WikipediaETLPigscriptTask.input_base_path := "s3://in";
                         WikipediaETLPigscriptTask.output_base_path := "s3://out" |} in
  in_graph (shutdown (main_task argv)) node
  /\ cluster_size node = Some 5%Z
  /\ 5%Z = 5%Z
  /\ main_task argv
     = {| ShutdownClusters.input_base_path := "s3://in";
          ShutdownClusters.table_name := "pageviews";
          ShutdownClusters.output_base_path := "s3://out" |}.
Proof.
  intros argv node.
  assert (Hnode : in_graph (shutdown (main_task argv)) node).
  { eapply rtc_l; [by apply list_elem_of_singleton |].
    eapply rtc_l; [by apply list_elem_of_singleton |].
    eapply rtc_l; [by apply list_elem_of_singleton |].
    reflexivity. }
  split; [exact Hnode |]. split; [reflexivity |].
  exact (cluster_size_is_five argv node 5%Z Hnode eq_refl).
Defined.

(** ** The engine *)

Section EngineFacts.

Context {T Tg : Type} `{!EqDecision T, !EqDecision Tg}.
Variable dependencies : T -> list T.
Variable outputs : T -> list Tg.
Variable action : T -> option string.

Lemma isComplete_false (existing : list Tg) (t : T) (o : Tg) :
  o ∈ outputs t -> o ∉ existing ->
  Engine.isComplete outputs existing t = false.
Proof.
  intros Hdeclared Hmissing. unfold Engine.isComplete.
  destruct (forallb _ _) eqn:Hall; [| reflexivity].
  rewrite forallb_forall in Hall.
  apply list_elem_of_In, Hall, bool_decide_eq_true in Hdeclared.
  contradiction.
Qed.

Lemma result_of_here (rs : list (T * Engine.ExecutionResult)) (t : T)
    (r : Engine.ExecutionResult) :
  Engine.result_of ((t, r) :: rs) t = r.
Proof. unfold Engine.result_of. simpl. by rewrite decide_True. Qed.

Lemma result_of_next (rs : list (T * Engine.ExecutionResult)) (t t' : T)
    (r : Engine.ExecutionResult) :
  t' <> t -> Engine.result_of ((t', r) :: rs) t = Engine.result_of rs t.
Proof.
  intros Hne. unfold Engine.result_of. simpl. rewrite decide_False by done.
  by destruct (list_find _ rs) as [[n [t'' r'']]|].
Qed.

Lemma failed_dependency_none (rs : list (T * Engine.ExecutionResult)) (t : T) :
  (forall d, d ∈ dependencies t -> Engine.result_of rs d = Engine.Succeeded) ->
  Engine.failed_dependency dependencies rs t = None.
Proof.
  unfold Engine.failed_dependency. intros Hdeps.
  induction (dependencies t) as [|d ds IH]; [reflexivity |].
  simpl. rewrite (Hdeps d) by left.
  apply IH. intros d' Hd'. apply Hdeps. by right.
Qed.

(** A task that is not complete, whose dependencies all succeeded and whose
    action succeeds, is invoked and succeeds; its outputs then exist. *)
Lemma step_succeeds (s : Engine.run_state) (t : T) :
  Engine.isComplete outputs (Engine.store s) t = false ->
  (forall d, d ∈ dependencies t ->
             Engine.result_of (Engine.results s) d = Engine.Succeeded) ->
  action t = None ->
  Engine.step dependencies outputs action s t
  = {| Engine.results := Engine.results s ++ [(t, Engine.Succeeded)];
       Engine.store := Engine.store s ++ outputs t;
       Engine.invoked := Engine.invoked s ++ [t] |}.
Proof.
  intros Hincomplete Hdeps Hok. unfold Engine.step.
  by rewrite Hincomplete, failed_dependency_none, Hok.
Qed.

(** A complete task is skipped and nothing is invoked. *)
Lemma step_skips (s : Engine.run_state) (t : T) :
  Engine.isComplete outputs (Engine.store s) t = true ->
  Engine.step dependencies outputs action s t
  = {| Engine.results := Engine.results s ++ [(t, Engine.Skipped)];
       Engine.store := Engine.store s;
       Engine.invoked := Engine.invoked s |}.
Proof. intros Hcomplete. unfold Engine.step. by rewrite Hcomplete. Qed.

End EngineFacts.

(** The graph builder finds the chain of a root, dependencies first, as
    soon as it may go four tasks deep. *)
Lemma build_chain (root : ShutdownClusters.t) (fuel : nat) :
  Engine.build requires (4 + fuel) (shutdown root) = Engine.Built (chain root).
Proof. reflexivity. Qed.

(** Three tasks deep is not enough. *)
Lemma build_out_of_fuel (root : ShutdownClusters.t) :
  Engine.build requires 3 (shutdown root) = Engine.OutOfFuel.
Proof. reflexivity. Qed.

Lemma chain_NoDup (root : ShutdownClusters.t) : NoDup (chain root).
Proof.
  unfold chain. repeat (apply NoDup_cons; split); [| | | | apply NoDup_nil_2].
  all: intros Hin; repeat (apply elem_of_cons in Hin as [Heq | Hin]);
    try discriminate; by apply elem_of_nil in Hin.
Qed.

(** The targets of different tasks of one chain are different targets. *)
Lemma outputs_apart (o : string) (s1 s2 : string) (existing : list Target) :
  s1 <> s2 ->
  S3 (mkS3Target (create_full_path o s1)) ∉ existing ->
  S3 (mkS3Target (create_full_path o s1))
    ∉ S3 (mkS3Target (create_full_path o s2)) :: existing.
Proof.
  intros Hne Hrest [Heq | Hin]%elem_of_cons; [| contradiction].
  injection Heq as Heq. by apply create_full_path_inj in Heq.
Qed.

(** The engine on small graphs over numbers: a diamond is built with one
    node for the shared dependency, and a cycle is reported with its path. *)
Example build_diamond :
  Engine.build (fun n : nat => match n with
                               | 0 => [1; 2]
                               | 1 | 2 => [3]
                               | _ => []
                               end%nat) 3 0%nat
  = Engine.Built [3; 1; 2; 0]%nat.
Proof. reflexivity. Qed.

Example build_cycle :
  Engine.build (fun n : nat => match n with
                               | 0 => [1]
                               | _ => [0]
                               end%nat) 5 0%nat
  = Engine.CycleError [0; 1; 0]%nat.
Proof. reflexivity. Qed.

Lemma execute_chain (action : task -> option string) (root : ShutdownClusters.t) :
  (forall t, action t = None) ->
  Engine.execute requires outputs action (chain root) []
  = {| Engine.results := (fun t => (t, Engine.Succeeded)) <$> chain root;
       Engine.store := concat (outputs <$> chain root);
       Engine.invoked := chain root |}.
Proof.
  intros Hok. destruct root as [i t o].
  unfold Engine.execute, chain, the_extract, the_transform, the_copy.
  simpl.
  rewrite (step_succeeds requires outputs action _ (extract _)); simpl; [| | | apply Hok].
  2: { apply (isComplete_false _ _ _ (S3 (mkS3Target (create_full_path o "extract"))));
       [simpl; by left | apply not_elem_of_nil]. }
  2: { by intros d Hd%elem_of_nil. }
  rewrite (step_succeeds requires outputs action _ (transform _)); simpl; [| | | apply Hok].
  2: { apply (isComplete_false _ _ _ (S3 (mkS3Target (create_full_path o "transform"))));
       [simpl; by left |].
       apply outputs_apart; [discriminate | apply not_elem_of_nil]. }
  2: { intros d Hd%list_elem_of_singleton. subst d. apply result_of_here. }
  rewrite (step_succeeds requires outputs action _ (copy _)); simpl; [| | | apply Hok].
  2: { apply (isComplete_false _ _ _ (LoadMarker (CopyToRedshiftTask.mk t o i)));
       [simpl; by left |].
       intros Hin. repeat (apply elem_of_cons in Hin as [Heq | Hin]);
         try discriminate. by apply elem_of_nil in Hin. }
  2: { intros d Hd%list_elem_of_singleton. subst d.
       rewrite result_of_next by discriminate. apply result_of_here. }
  rewrite (step_succeeds requires outputs action _ (shutdown _)); simpl; [| | | apply Hok].
  2: { apply (isComplete_false _ _ _
                (S3 (mkS3Target (create_full_path o ShutdownClusters.class_name))));
       [simpl; by left |].
       apply outputs_apart; [discriminate |].
       apply outputs_apart; [discriminate |].
       intros Hin. repeat (apply elem_of_cons in Hin as [Heq | Hin]);
         try discriminate. by apply elem_of_nil in Hin. }
  2: { intros d Hd%list_elem_of_singleton. subst d.
       rewrite result_of_next by discriminate.
       rewrite result_of_next by discriminate. apply result_of_here. }
  reflexivity.
Qed.

(** C1: the requires() of the tasks form the chain ShutdownClusters ->
    CopyToRedshiftTask -> TransformWikipediaDataTask ->
    ExtractWikipediaDataTask, each task asking for exactly its one
    predecessor and the extract task for nothing; with no target existing
    and every action succeeding, the run invokes extract, transform, copy,
    shutdown in that order, each once, and each succeeds. *)
Theorem pipeline_runs_in_order (action : task -> option string)
    (root : ShutdownClusters.t) (fuel : nat) :
  (forall t, action t = None) ->
  (requires (shutdown root) = [copy (the_copy root)]
   /\ requires (copy (the_copy root)) = [transform (the_transform root)]
   /\ requires (transform (the_transform root)) = [extract (the_extract root)]
   /\ requires (extract (the_extract root)) = [])
  /\ exists s : Engine.run_state,
      run_pipeline action (4 + fuel) root [] = Some s
      /\ Engine.invoked s
         = [extract (the_extract root); transform (the_transform root);
            copy (the_copy root); shutdown root]
      /\ Engine.results s
         = [(extract (the_extract root), Engine.Succeeded);
            (transform (the_transform root), Engine.Succeeded);
            (copy (the_copy root), Engine.Succeeded);
            (shutdown root, Engine.Succeeded)]
      /\ NoDup (Engine.invoked s).
Proof.
  intros Hok. split; [by repeat split |].
  eexists. split.
  - unfold run_pipeline, Engine.run. rewrite build_chain.
    by rewrite execute_chain.
  - simpl. split_and!; [reflexivity | reflexivity | apply chain_NoDup].
Qed.

Lemma pipeline_runs_in_order_witness :
  let action := fun _ : task => @None string in
  let root := {| ShutdownClusters.input_base_path := "s3://in";
                 ShutdownClusters.table_name := "pageviews";
                 ShutdownClusters.output_base_path := "s3://out" |} in
  (forall t, action t = None)
  /\ exists s : Engine.run_state,
      run_pipeline action 4 root [] = Some s
      /\ Engine.invoked s
         = [extract (the_extract root); transform (the_transform root);
            copy (the_copy root); shutdown root].
Proof.
  intros action root.
  assert (Hok : forall t, action t = None) by reflexivity.
  split; [exact Hok |].
  destruct (pipeline_runs_in_order action root 0 Hok)
    as [_ (s & Hrun & Hinvoked & _)].
  exists s. split; [exact Hrun | exact Hinvoked].
Defined.

(** When the transform action fails, extract and transform were invoked,
    and the load and the shutdown fail without being invoked. *)
Example failure_propagates :
  let root := {| ShutdownClusters.input_base_path := "s3://in";
                 ShutdownClusters.table_name := "pageviews";
                 ShutdownClusters.output_base_path := "s3://out" |} in
  let action := fun t => match t with
                         | transform _ => Some "pig job failed"
                         | _ => None
                         end in
  (fun s => (Engine.invoked s, snd <$> Engine.results s))
    <$> run_pipeline action 4 root []
  = Some ([extract (the_extract root); transform (the_transform root)],
          [Engine.Succeeded; Engine.Failed "pig job failed";
           Engine.Failed "pig job failed"; Engine.Failed "pig job failed"]).
Proof. vm_compute. reflexivity. Qed.

(** A second run, started from the targets the first one left, skips every
    task and invokes nothing. *)
Lemma rerun_skips (action : task -> option string) (root : ShutdownClusters.t) :
  Engine.execute requires outputs action (chain root)
    (concat (outputs <$> chain root))
  = {| Engine.results := (fun t => (t, Engine.Skipped)) <$> chain root;
       Engine.store := concat (outputs <$> chain root);
       Engine.invoked := [] |}.
Proof.
  unfold Engine.execute, chain. simpl.
  rewrite (step_skips requires outputs action _ (extract _)); simpl.
  2: { apply andb_true_intro. split; [| reflexivity].
       apply bool_decide_eq_true. set_solver. }
  rewrite (step_skips requires outputs action _ (transform _)); simpl.
  2: { apply andb_true_intro. split; [| reflexivity].
       apply bool_decide_eq_true. set_solver. }
  rewrite (step_skips requires outputs action _ (copy _)); simpl.
  2: { apply andb_true_intro. split; [| reflexivity].
       apply bool_decide_eq_true. set_solver. }
  rewrite (step_skips requires outputs action _ (shutdown _)); simpl.
  2: { apply andb_true_intro. split; [| reflexivity].
       apply bool_decide_eq_true. set_solver. }
  reflexivity.
Qed.

(** ** The configuration source *)

(** One call of [redshift_credentials()] on a configuration that has the
    seven options: the dictionary it returns and the reads it makes. *)
Lemma redshift_credentials_run (self : CopyToRedshiftTask.t)
    (cfg : gmap (string * string) string) (tr : list configuration.event)
    (host port database username password key secret : string) :
  cfg !! ("redshift", "host") = Some host ->
  cfg !! ("redshift", "port") = Some port ->
  cfg !! ("redshift", "database") = Some database ->
  cfg !! ("redshift", "username") = Some username ->
  cfg !! ("redshift", "password") = Some password ->
  cfg !! ("redshift", "aws_access_key_id") = Some key ->
  cfg !! ("redshift", "aws_secret_access_key") = Some secret ->
  CopyToRedshiftTask.redshift_credentials self cfg tr
  = (configuration.Ok
       (<["aws_secret_access_key" := secret]>
       (<["aws_access_key_id" := key]>
       (<["password" := password]>
       (<["username" := username]>
       (<["database" := database]>
       (<["port" := port]>
       (<["host" := host]> ∅))))))),
     tr ++ credential_reads).
Proof.
  intros Hhost Hport Hdatabase Husername Hpassword Hkey Hsecret.
  unfold CopyToRedshiftTask.redshift_credentials, mbind, configuration.M_bind,
    configuration.get_config, configuration.get, mret, configuration.M_ret.
  rewrite Hhost, Hport, Hdatabase, Husername, Hpassword, Hkey, Hsecret.
  f_equal. rewrite <- !app_assoc. reflexivity.
Qed.

Lemma configured_lookups (cfg : gmap (string * string) string) :
  configured cfg ->
  exists host port database username password key secret : string,
    cfg !! ("redshift", "host") = Some host
    /\ cfg !! ("redshift", "port") = Some port
    /\ cfg !! ("redshift", "database") = Some database
    /\ cfg !! ("redshift", "username") = Some username
    /\ cfg !! ("redshift", "password") = Some password
    /\ cfg !! ("redshift", "aws_access_key_id") = Some key
    /\ cfg !! ("redshift", "aws_secret_access_key") = Some secret.
Proof.
  intros Hcfg.
  assert (Hall : Forall (fun opt => is_Some (cfg !! ("redshift", opt)))
                   credential_options) by by apply Forall_forall.
  unfold credential_options in Hall.
  repeat (apply Forall_cons in Hall as [[? ?] Hall]).
  by repeat eexists.
Qed.

(** What a property that reads one entry of a fresh dictionary does. *)
Lemma credential_property_run (self : CopyToRedshiftTask.t)
    (cfg : gmap (string * string) string) (tr : list configuration.event)
    (opt : string) :
  configured cfg ->
  opt ∈ credential_options ->
  (d ← CopyToRedshiftTask.redshift_credentials self; configuration.getitem d opt)
    cfg tr
  = (from_config cfg opt, tr ++ credential_reads).
Proof.
  intros Hcfg Hopt.
  destruct (configured_lookups cfg Hcfg)
    as (host & port & database & username & password & key & secret
        & Hhost & Hport & Hdatabase & Husername & Hpassword & Hkey & Hsecret).
  unfold mbind at 1, configuration.M_bind at 1.
  rewrite (redshift_credentials_run self cfg tr _ _ _ _ _ _ _
             Hhost Hport Hdatabase Husername Hpassword Hkey Hsecret).
  unfold configuration.getitem, from_config, credential_options in *.
  repeat (apply elem_of_cons in Hopt as [-> | Hopt]);
    [| | | | | | | by apply elem_of_nil in Hopt].
  - by rewrite Hhost.
  - by rewrite Hport.
  - by rewrite Hdatabase.
  - by rewrite Husername.
  - by rewrite Hpassword.
  - by rewrite Hkey.
  - by rewrite Hsecret.
Qed.

(** The host property: two calls, the host of the first and the port of
    the second joined by a colon. *)
Lemma host_run (self : CopyToRedshiftTask.t)
    (cfg : gmap (string * string) string) (tr : list configuration.event)
    (host port : string) :
  configured cfg ->
  cfg !! ("redshift", "host") = Some host ->
  cfg !! ("redshift", "port") = Some port ->
  CopyToRedshiftTask.host self cfg tr
  = (configuration.Ok ((host +:+ ":") +:+ port),
     tr ++ credential_reads ++ credential_reads).
Proof.
  intros Hcfg Hhost Hport.
  destruct (configured_lookups cfg Hcfg)
    as (host' & port' & database & username & password & key & secret
        & Hhost' & Hport' & Hdatabase & Husername & Hpassword & Hkey & Hsecret).
  assert (host' = host) as -> by congruence.
  assert (port' = port) as -> by congruence.
  unfold CopyToRedshiftTask.host, mbind, configuration.M_bind.
  rewrite (redshift_credentials_run self cfg tr _ _ _ _ _ _ _
             Hhost Hport Hdatabase Husername Hpassword Hkey Hsecret).
  unfold configuration.getitem at 1.
  change (_ !! "host") with (Some host).
  rewrite (redshift_credentials_run self cfg (tr ++ credential_reads) _ _ _ _ _ _ _
             Hhost Hport Hdatabase Husername Hpassword Hkey Hsecret).
  unfold configuration.getitem.
  change (_ !! "port") with (Some port).
  unfold mret, configuration.M_ret. by rewrite <- app_assoc.
Qed.

(** C5, as stated, fails: constructing the load task reads nothing of the
    configuration, reading the password afterwards does, reading it twice
    reads the option twice, and one access of host makes fourteen reads. *)
Lemma configuration_read_on_every_access :
  let self := {| CopyToRedshiftTask.table_name := "pageviews";
                 CopyToRedshiftTask.output_base_path := "s3://out";
                 CopyToRedshiftTask.input_base_path := "s3://in" |} in
  CopyToRedshiftTask.construct "s3://in" "s3://out" "pageviews" example_config []
  = (configuration.Ok self, [])
  /\ (CopyToRedshiftTask.password self example_config []).2 = credential_reads
  /\ configuration.reads_of "redshift" "password"
       ((_ ← CopyToRedshiftTask.password self; CopyToRedshiftTask.password self)
          example_config []).2 = 2%nat
  /\ configuration.reads (CopyToRedshiftTask.host self example_config []).2 = 14%nat.
Proof. vm_compute. by split_and!. Qed.

(** ** What the load task hands to the bulk load *)

(** C6: for every assignment of its parameters the load task gives the
    table table_name, the eight columns wiki_code text, language text,
    wiki_type text, article varchar(max), day int, hour int, pageviews int
    and PRIMARY KEY (article, day, hour), the source s3_load_path(), and
    credentials that are the values of the configuration source. *)
Theorem bulk_load_arguments (self : CopyToRedshiftTask.t)
    (cfg : gmap (string * string) string) (tr : list configuration.event) :
  configured cfg ->
  CopyToRedshiftTask.table self = CopyToRedshiftTask.table_name self
  /\ (CopyToRedshiftTask.columns
      = [("wiki_code", "text"); ("language", "text"); ("wiki_type", "text");
         ("article", "varchar(max)"); ("day", "int"); ("hour", "int");
         ("pageviews", "int"); ("PRIMARY KEY", "(article, day, hour)")]
      /\ length CopyToRedshiftTask.columns = 8%nat)
  /\ CopyToRedshiftTask.s3_load_path self
     = create_full_path
         (create_full_path (CopyToRedshiftTask.output_base_path self) "transform")
         "part"
  /\ (CopyToRedshiftTask.aws_access_key_id self cfg tr).1
     = from_config cfg "aws_access_key_id"
  /\ (CopyToRedshiftTask.aws_secret_access_key self cfg tr).1
     = from_config cfg "aws_secret_access_key"
  /\ (CopyToRedshiftTask.database self cfg tr).1 = from_config cfg "database"
  /\ (CopyToRedshiftTask.user self cfg tr).1 = from_config cfg "username"
  /\ (CopyToRedshiftTask.password self cfg tr).1 = from_config cfg "password"
  /\ (exists host port,
        from_config cfg "host" = configuration.Ok host
        /\ from_config cfg "port" = configuration.Ok port
        /\ (CopyToRedshiftTask.host self cfg tr).1
           = configuration.Ok ((host +:+ ":") +:+ port))
  /\ (exists d : gmap string string,
        (CopyToRedshiftTask.redshift_credentials self cfg tr).1 = configuration.Ok d
        /\ dom d = (list_to_set credential_options : gset string)
        /\ Forall (fun opt => d !! opt = cfg !! ("redshift", opt)) credential_options).
Proof.
  intros Hcfg.
  destruct (configured_lookups cfg Hcfg)
    as (host & port & database & username & password & key & secret
        & Hhost & Hport & Hdatabase & Husername & Hpassword & Hkey & Hsecret).
  assert (Hmember : Forall (fun opt => opt ∈ credential_options) credential_options)
    by by apply Forall_forall.
  unfold credential_options at 2 in Hmember.
  repeat (apply Forall_cons in Hmember as [? Hmember]).
  split_and!; try reflexivity.
  - unfold CopyToRedshiftTask.aws_access_key_id.
    by rewrite credential_property_run.
  - unfold CopyToRedshiftTask.aws_secret_access_key.
    by rewrite credential_property_run.
  - unfold CopyToRedshiftTask.database.
    by rewrite credential_property_run.
  - unfold CopyToRedshiftTask.user.
    by rewrite credential_property_run.
  - unfold CopyToRedshiftTask.password.
    by rewrite credential_property_run.
  - exists host, port. unfold from_config. rewrite Hhost, Hport.
    by rewrite (host_run self cfg tr host port).
  - eexists. split_and!.
    + by rewrite (redshift_credentials_run self cfg tr _ _ _ _ _ _ _
                    Hhost Hport Hdatabase Husername Hpassword Hkey Hsecret).
    + rewrite !dom_insert_L, dom_empty_L. unfold credential_options. simpl.
      set_solver.
    + unfold credential_options.
      repeat (apply Forall_cons; split;
              [symmetry; etrans; [eassumption | reflexivity] |]).
      apply Forall_nil_2.
Qed.

Lemma bulk_load_arguments_witness :
  let self := {| CopyToRedshiftTask.table_name := "pageviews";
                 CopyToRedshiftTask.output_base_path := "s3://out";
                 CopyToRedshiftTask.input_base_path := "s3://in" |} in
  configured example_config
  /\ CopyToRedshiftTask.table self = "pageviews"
  /\ (CopyToRedshiftTask.password self example_config []).1
     = from_config example_config "password".
Proof.
  intros self.
  assert (Hcfg : configured example_config).
  { intros opt Hopt. unfold credential_options in Hopt.
    repeat (apply elem_of_cons in Hopt as [-> | Hopt]);
      [| | | | | | | by apply elem_of_nil in Hopt];
      vm_compute; eauto. }
  split; [exact Hcfg |].
  split; apply (bulk_load_arguments self example_config [] Hcfg).
Defined.

(** * Further properties of the script *)

(** ** The path helper *)

Lemma append_length (a b : string) :
  String.length (a +:+ b) = (String.length a + String.length b)%nat.
Proof.
  induction a as [|x a IH]; [reflexivity |].
  change (S (String.length (a +:+ b)) = S (String.length a + String.length b)).
  by rewrite IH.
Qed.

Lemma append_inj_r (a b s : string) : a +:+ s = b +:+ s -> a = b.
Proof.
  revert b. induction a as [|x a IH]; intros [|y b] Heq.
  - reflexivity.
  - apply (f_equal String.length) in Heq.
    rewrite !append_length in Heq. simpl in Heq. lia.
  - apply (f_equal String.length) in Heq.
    rewrite !append_length in Heq. simpl in Heq. lia.
  - change (String x (a +:+ s) = String y (b +:+ s)) in Heq.
    injection Heq as -> Heq. f_equal. by apply IH.
Qed.

(** X1: create_full_path determines the sub path when the base path is
    known and the base path when the sub path is known, but not the pair:
    a/b joined with c is a joined with b/c.  The result is one character
    longer than its two parts together. *)
Theorem create_full_path_cancel (b1 b2 s1 s2 : string) :
  (create_full_path b1 s1 = create_full_path b1 s2 <-> s1 = s2)
  /\ (create_full_path b1 s1 = create_full_path b2 s1 <-> b1 = b2)
  /\ create_full_path (create_full_path b1 s1) s2
     = create_full_path b1 (create_full_path s1 s2)
  /\ String.length (create_full_path b1 s1)
     = (String.length b1 + 1 + String.length s1)%nat.
Proof.
  split_and!.
  - split; [apply create_full_path_inj | by intros ->].
  - split; [| by intros ->].
    unfold create_full_path. apply append_inj_r.
  - unfold create_full_path. by rewrite !append_assoc.
  - unfold create_full_path. rewrite !append_length. simpl. lia.
Qed.

(** ** The locations of one pipeline *)

(** X2: in the graph of a root, the target of the extract task, the
    target of the transform task, the target of the shutdown task and the
    path the load task copies from are four different locations. *)
Theorem pipeline_locations_distinct (root : ShutdownClusters.t) :
  NoDup ((path <$> ExtractWikipediaDataTask.script_output (the_extract root))
         ++ (path <$> TransformWikipediaDataTask.script_output (the_transform root))
         ++ (path <$> ShutdownClusters.output root)
         ++ [CopyToRedshiftTask.s3_load_path (the_copy root)]).
Proof.
  destruct root as [i t o]. simpl.
  unfold CopyToRedshiftTask.s3_load_path, CopyToRedshiftTask.transform_path,
    ShutdownClusters.class_name. simpl.
  rewrite create_full_path_nested.
  change (o +:+ "/" +:+ "transform" +:+ "/" +:+ "part")
    with (create_full_path o "transform/part").
  repeat (apply NoDup_cons; split); [| | | | apply NoDup_nil_2].
  all: intros Hin; repeat (apply elem_of_cons in Hin as [Heq | Hin]);
    try (apply create_full_path_inj in Heq; discriminate);
    by apply elem_of_nil in Hin.
Qed.

(** ** The shape of the dependency relation *)

Lemma requires_depth (a b : task) : b ∈ requires a -> depth a = S (depth b).
Proof.
  destruct a as [self|self|self|self]; intros Hb.
  - by apply requires_extract in Hb.
  - by apply requires_transform in Hb as ->.
  - by apply requires_copy in Hb as ->.
  - by apply requires_shutdown in Hb as ->.
Qed.

Lemma nsteps_depth (n : nat) (a b : task) :
  nsteps (fun a b => b ∈ requires a) n a b -> depth a = (n + depth b)%nat.
Proof.
  induction 1 as [a | n a c b Hac _ IH]; [reflexivity |].
  apply requires_depth in Hac. lia.
Qed.

Lemma depth_le_3 (t : task) : (depth t <= 3)%nat.
Proof. destruct t; simpl; lia. Qed.

(** X3: for tasks of any class and any parameters, a chain of requires()
    steps is at most three steps long and never comes back to the task it
    started from: the dependency relation has no cycle. *)
Theorem requires_chains_bounded (n : nat) (a b : task) :
  nsteps (fun a b => b ∈ requires a) n a b ->
  (n <= 3)%nat /\ (a = b <-> n = 0%nat).
Proof.
  intros Hsteps. pose proof (nsteps_depth n a b Hsteps) as Hdepth.
  pose proof (depth_le_3 a). split; [lia |]. split.
  - intros ->. lia.
  - intros ->. by inversion Hsteps.
Qed.

Lemma requires_chains_bounded_witness :
  let root := {| ShutdownClusters.input_base_path := "s3://in";
                 ShutdownClusters.table_name := "pageviews";
                 ShutdownClusters.output_base_path := "s3://out" |} in
  nsteps (fun a b => b ∈ requires a) 3 (shutdown root) (extract (the_extract root))
  /\ (3 <= 3)%nat
  /\ (shutdown root = extract (the_extract root) <-> 3%nat = 0%nat).
Proof.
  intros root.
  assert (Hsteps : nsteps (fun a b => b ∈ requires a) 3
                     (shutdown root) (extract (the_extract root))).
  { eapply nsteps_l; [by apply list_elem_of_singleton |].
    eapply nsteps_l; [by apply list_elem_of_singleton |].
    eapply nsteps_l; [by apply list_elem_of_singleton |].
    apply nsteps_O. }
  split; [exact Hsteps |].
  exact (requires_chains_bounded 3 (shutdown root) (extract (the_extract root)) Hsteps).
Defined.

(** X4: the graph of a root holds exactly four tasks, one of each class,
    all different: the root, the load task it asks for, the transform task
    that one asks for and the extract task the transform task asks for. *)
Theorem graph_is_four_tasks (root : ShutdownClusters.t) :
  let tasks := [shutdown root; copy (the_copy root);
                transform (the_transform root); extract (the_extract root)] in
  NoDup tasks
  /\ depth <$> tasks = [3; 2; 1; 0]%nat
  /\ forall t, in_graph (shutdown root) t <-> t ∈ tasks.
Proof.
  intros tasks. split_and!.
  - unfold tasks. repeat (apply NoDup_cons; split); [| | | | apply NoDup_nil_2].
    all: intros Hin; repeat (apply elem_of_cons in Hin as [Heq | Hin]);
      try discriminate; by apply elem_of_nil in Hin.
  - reflexivity.
  - intros t. rewrite in_graph_chain. unfold chain, tasks.
    rewrite !elem_of_cons, !elem_of_nil. tauto.
Qed.

(** X5: a transform task of any cluster size hands that size on: every
    task in its graph, itself and the extract task it asks for, has the
    cluster size of the transform task. *)
Theorem transform_passes_cluster_size (self : TransformWikipediaDataTask.t)
    (t : task) :
  in_graph (transform self) t ->
  cluster_size t = Some (WikipediaETLPigscriptTask.cluster_size self)
  /\ input_base_path t = WikipediaETLPigscriptTask.input_base_path self
  /\ output_base_path t = WikipediaETLPigscriptTask.output_base_path self.
Proof.
  unfold in_graph. intros Hin.
  apply rtc_inv in Hin as [<- | (e & He & Hin)]; [by split_and! |].
  apply requires_transform in He as ->.
  apply rtc_inv in Hin as [<- | (no & Hno & _)]; [by split_and! |].
  by apply requires_extract in Hno.
Qed.

Lemma transform_passes_cluster_size_witness :
  let self := {| WikipediaETLPigscriptTask.cluster_size := 12;
                 WikipediaETLPigscriptTask.input_base_path := "s3://in";
                 WikipediaETLPigscriptTask.output_base_path := "s3://out" |} in
  let t := extract {| WikipediaETLPigscriptTask.cluster_size := 12;
                      WikipediaETLPigscriptTask.input_base_path := "s3://in";
                      WikipediaETLPigscriptTask.output_base_path := "s3://out" |} in
  in_graph (transform self) t
  /\ cluster_size t = Some 12%Z.
Proof.
  intros self t.
  assert (Hin : in_graph (transform self) t).
  { eapply rtc_l; [by apply list_elem_of_singleton |]. reflexivity. }
  split; [exact Hin |].
  apply (transform_passes_cluster_size self t Hin).
Defined.

(** X6: the one load task in the graph of a root loads the table the root
    was given, from the transform directory under the root's
    output_base_path. *)
Theorem pipeline_load_task (root : ShutdownClusters.t) (self : CopyToRedshiftTask.t) :
  in_graph (shutdown root) (copy self) ->
  CopyToRedshiftTask.table self = ShutdownClusters.table_name root
  /\ CopyToRedshiftTask.s3_load_path self
     = ShutdownClusters.output_base_path root +:+ "/transform/part"
  /\ (forall other, in_graph (shutdown root) (copy other) -> other = self).
Proof.
  assert (Honly : forall c, in_graph (shutdown root) (copy c) -> c = the_copy root).
  { intros c Hin. apply in_graph_chain in Hin. unfold chain in Hin.
    repeat (apply elem_of_cons in Hin as [Heq | Hin]);
      try discriminate; [| by apply elem_of_nil in Hin].
    by injection Heq. }
  intros Hin. apply Honly in Hin as Hself. subst self. split_and!.
  - reflexivity.
  - unfold CopyToRedshiftTask.s3_load_path, CopyToRedshiftTask.transform_path.
    by rewrite create_full_path_nested.
  - exact Honly.
Qed.

Lemma pipeline_load_task_witness :
  let root := {| ShutdownClusters.input_base_path := "s3://in";
                 ShutdownClusters.table_name := "pageviews";
                 ShutdownClusters.output_base_path := "s3://out" |} in
  in_graph (shutdown root) (copy (the_copy root))
  /\ CopyToRedshiftTask.table (the_copy root) = "pageviews".
Proof.
  intros root.
  assert (Hin : in_graph (shutdown root) (copy (the_copy root))).
  { eapply rtc_l; [by apply list_elem_of_singleton |]. reflexivity. }
  split; [exact Hin |].
  apply (pipeline_load_task root (the_copy root) Hin).
Defined.

(** ** Sizes and parameters *)

(** The two parameter dictionaries as finite maps. *)
Lemma pigscript_parameters_maps `{mortartask} (self : WikipediaETLPigscriptTask.t) :
  ExtractWikipediaDataTask.parameters self
  = {[ "OUTPUT_PATH" := PyStr (WikipediaETLPigscriptTask.output_base_path self);
       "INPUT_PATH" := PyStr (WikipediaETLPigscriptTask.input_base_path self) ]}
  /\ TransformWikipediaDataTask.parameters self
     = {[ "OUTPUT_PATH" := PyStr (WikipediaETLPigscriptTask.output_base_path self);
          "INPUT_PATH" := PyStr (WikipediaETLPigscriptTask.input_base_path self);
          "REDSHIFT_PARALLELIZATION" :=
            PyInt (TransformWikipediaDataTask.number_of_files self) ]}.
Proof.
  unfold ExtractWikipediaDataTask.parameters, TransformWikipediaDataTask.parameters.
  split.
  - apply map_eq. intros k.
    destruct (decide (k = "INPUT_PATH")) as [->|]; [by simplify_map_eq |].
    destruct (decide (k = "OUTPUT_PATH")) as [->|]; by simplify_map_eq.
  - apply map_eq. intros k.
    destruct (decide (k = "REDSHIFT_PARALLELIZATION")) as [->|]; [by simplify_map_eq |].
    destruct (decide (k = "INPUT_PATH")) as [->|]; [by simplify_map_eq |].
    destruct (decide (k = "OUTPUT_PATH")) as [->|]; by simplify_map_eq.
Qed.

(** X7: when a machine has at least one reduce slot, number_of_files() is
    positive exactly for a cluster of two or more machines, zero for a
    cluster of one and negative below that, and it is always even; the
    same holds for the override of the transform task. *)
Theorem number_of_files_sign `{mortartask} (self : WikipediaETLPigscriptTask.t) :
  (0 < NUM_REDUCE_SLOTS_PER_MACHINE)%Z ->
  let size := WikipediaETLPigscriptTask.cluster_size self in
  let files := WikipediaETLPigscriptTask.number_of_files self in
  ((0 < files)%Z <-> (2 <= size)%Z)
  /\ (files = 0%Z <-> size = 1%Z)
  /\ ((files < 0)%Z <-> (size <= 0)%Z)
  /\ Z.even files = true
  /\ ((0 < WikipediaETLPigscriptTask.default_parallel self)%Z <-> (2 <= size)%Z)
  /\ TransformWikipediaDataTask.number_of_files self = files.
Proof.
  intros Hslots size files.
  unfold files, WikipediaETLPigscriptTask.number_of_files,
    WikipediaETLPigscriptTask.default_parallel,
    TransformWikipediaDataTask.number_of_files.
  fold size. generalize dependent NUM_REDUCE_SLOTS_PER_MACHINE.
  intros slots Hslots. split_and!; try nia.
  by rewrite <- Z.mul_assoc, Z.even_mul.
Qed.

Lemma number_of_files_sign_witness :
  let lib := {| NUM_REDUCE_SLOTS_PER_MACHINE := 3 |} in
  let self := {| WikipediaETLPigscriptTask.cluster_size := 1;
                 WikipediaETLPigscriptTask.input_base_path := "s3://in";
                 WikipediaETLPigscriptTask.output_base_path := "s3://out" |} in
  (0 < @NUM_REDUCE_SLOTS_PER_MACHINE lib)%Z
  /\ (@WikipediaETLPigscriptTask.number_of_files lib self = 0%Z
      <-> WikipediaETLPigscriptTask.cluster_size self = 1%Z).
Proof.
  intros lib self.
  assert (Hslots : (0 < @NUM_REDUCE_SLOTS_PER_MACHINE lib)%Z) by reflexivity.
  split; [exact Hslots |].
  apply (@number_of_files_sign lib self Hslots).
Defined.

(** X8: in the graph of any root, both pig tasks get the root's
    input_base_path as INPUT_PATH and the root's output_base_path as
    OUTPUT_PATH, both run with default_parallel() of four machines' slots,
    and the transform task gets REDSHIFT_PARALLELIZATION of eight
    machines' slots. *)
Theorem pipeline_pig_parameters `{mortartask} (root : ShutdownClusters.t)
    (t : task) :
  in_graph (shutdown root) t ->
  match t with
  | extract self =>
      ExtractWikipediaDataTask.parameters self
      = {[ "OUTPUT_PATH" := PyStr (ShutdownClusters.output_base_path root);
           "INPUT_PATH" := PyStr (ShutdownClusters.input_base_path root) ]}
      /\ ExtractWikipediaDataTask.default_parallel self
         = (4 * NUM_REDUCE_SLOTS_PER_MACHINE)%Z
  | transform self =>
      TransformWikipediaDataTask.parameters self
      = {[ "OUTPUT_PATH" := PyStr (ShutdownClusters.output_base_path root);
           "INPUT_PATH" := PyStr (ShutdownClusters.input_base_path root);
           "REDSHIFT_PARALLELIZATION" := PyInt (8 * NUM_REDUCE_SLOTS_PER_MACHINE) ]}
      /\ TransformWikipediaDataTask.default_parallel self
         = (4 * NUM_REDUCE_SLOTS_PER_MACHINE)%Z
  | copy _ | shutdown _ => True
  end.
Proof.
  intros Hin. apply in_graph_chain in Hin. unfold chain in Hin.
  repeat (apply elem_of_cons in Hin as [-> | Hin]);
    [| | | | by apply elem_of_nil in Hin]; [| | exact I | exact I].
  - destruct (pigscript_parameters_maps (the_extract root)) as [-> _].
    split; [reflexivity |].
    unfold ExtractWikipediaDataTask.default_parallel,
      WikipediaETLPigscriptTask.default_parallel. simpl. lia.
  - destruct (pigscript_parameters_maps (the_transform root)) as [_ ->].
    split.
    + unfold TransformWikipediaDataTask.number_of_files. simpl.
      replace (2 * (5 - 1) * NUM_REDUCE_SLOTS_PER_MACHINE)%Z
        with (8 * NUM_REDUCE_SLOTS_PER_MACHINE)%Z by lia.
      reflexivity.
    + unfold TransformWikipediaDataTask.default_parallel,
        WikipediaETLPigscriptTask.default_parallel. simpl. lia.
Qed.

Lemma pipeline_pig_parameters_witness :
  let lib := {| NUM_REDUCE_SLOTS_PER_MACHINE := 3 |} in
  let root := {| ShutdownClusters.input_base_path := "s3://in";
                 ShutdownClusters.table_name := "pageviews";
                 ShutdownClusters.output_base_path := "s3://out" |} in
  in_graph (shutdown root) (transform (the_transform root))
  /\ @TransformWikipediaDataTask.parameters lib (the_transform root)
       !! "REDSHIFT_PARALLELIZATION" = Some (PyInt 24).
Proof.
  intros lib root.
  assert (Hin : in_graph (shutdown root) (transform (the_transform root))).
  { eapply rtc_l; [by apply list_elem_of_singleton |].
    eapply rtc_l; [by apply list_elem_of_singleton |]. reflexivity. }
  split; [exact Hin |].
  destruct (@pipeline_pig_parameters lib root (transform (the_transform root)) Hin)
    as [Hparameters _].
  rewrite Hparameters. reflexivity.
Defined.

(** X9: the parameters of the transform task are those of the extract task
    with the same base paths and one more entry: removing
    REDSHIFT_PARALLELIZATION gives the extract dictionary back, which has
    two entries where the transform dictionary has three. *)
Theorem transform_parameters_extend `{mortartask}
    (self : WikipediaETLPigscriptTask.t) :
  delete "REDSHIFT_PARALLELIZATION" (TransformWikipediaDataTask.parameters self)
  = ExtractWikipediaDataTask.parameters self
  /\ ExtractWikipediaDataTask.parameters self
     ⊆ TransformWikipediaDataTask.parameters self
  /\ size (ExtractWikipediaDataTask.parameters self) = 2%nat
  /\ size (TransformWikipediaDataTask.parameters self) = 3%nat.
Proof.
  unfold TransformWikipediaDataTask.parameters, ExtractWikipediaDataTask.parameters.
  assert (Hfresh : forall a b : pyvalue,
             (<["INPUT_PATH" := a]> (<["OUTPUT_PATH" := b]> (∅ : gmap string pyvalue)))
               !! "REDSHIFT_PARALLELIZATION" = None) by (intros; by simplify_map_eq).
  split_and!.
  - rewrite delete_insert_eq. by apply delete_id.
  - by apply insert_subseteq.
  - rewrite !map_size_insert_None, map_size_empty; by simplify_map_eq.
  - rewrite !map_size_insert_None, map_size_empty; by simplify_map_eq.
Qed.

(** ** Options that are missing from the configuration *)

(** X10: when an option redshift_credentials() reads is missing and the
    ones before it in the dictionary literal are there, the call raises
    the error of config.get for that option, having read the options up
    to and including it and none after it. *)
Theorem missing_option_raises (self : CopyToRedshiftTask.t)
    (cfg : gmap (string * string) string) (tr : list configuration.event)
    (before after : list string) (opt : string) :
  credential_options = before ++ opt :: after ->
  Forall (fun o => is_Some (cfg !! ("redshift", o))) before ->
  cfg !! ("redshift", opt) = None ->
  CopyToRedshiftTask.redshift_credentials self cfg tr
  = (configuration.Raise (configuration.NoOptionError "redshift" opt),
     tr ++ configuration.GetConfig
        :: (configuration.Get "redshift" <$> before ++ [opt])).
Proof.
  unfold credential_options. intros Hsplit Hpresent Hmissing.
  unfold CopyToRedshiftTask.redshift_credentials, mbind, configuration.M_bind,
    configuration.get_config, configuration.get, mret, configuration.M_ret.
  do 7 (destruct before as [|o before]; simpl in Hsplit;
        [ injection Hsplit as <- <-; rewrite Hmissing; simpl;
          by rewrite <- ?app_assoc
        | injection Hsplit as <- Hsplit;
          apply Forall_cons in Hpresent as [[? ->] Hpresent] ]).
  by destruct before.
Qed.

Lemma missing_option_raises_witness :
  let self := {| CopyToRedshiftTask.table_name := "pageviews";
                 CopyToRedshiftTask.output_base_path := "s3://out";
                 CopyToRedshiftTask.input_base_path := "s3://in" |} in
  let cfg : gmap (string * string) string :=
    {[ ("redshift", "host") := "example.redshift.amazonaws.com" ]} in
  cfg !! ("redshift", "port") = None
  /\ CopyToRedshiftTask.redshift_credentials self cfg []
     = (configuration.Raise (configuration.NoOptionError "redshift" "port"),
        [configuration.GetConfig; configuration.Get "redshift" "host";
         configuration.Get "redshift" "port"]).
Proof.
  intros self cfg.
  assert (Hmissing : cfg !! ("redshift", "port") = None) by reflexivity.
  split; [exact Hmissing |].
  apply (missing_option_raises self cfg [] ["host"] _ "port" eq_refl).
  - apply Forall_cons. split; [| apply Forall_nil_2].
    exists "example.redshift.amazonaws.com". reflexivity.
  - exact Hmissing.
Defined.

(** Either the configuration has the seven options, or the call raises
    NoOptionError for one that is missing. *)
Lemma redshift_credentials_cases (self : CopyToRedshiftTask.t)
    (cfg : gmap (string * string) string) (tr : list configuration.event) :
  configured cfg
  \/ exists opt tr',
      opt ∈ credential_options
      /\ cfg !! ("redshift", opt) = None
      /\ CopyToRedshiftTask.redshift_credentials self cfg tr
         = (configuration.Raise (configuration.NoOptionError "redshift" opt), tr').
Proof.
  assert (Hmember : Forall (fun opt => opt ∈ credential_options) credential_options)
    by by apply Forall_forall.
  destruct (decide (Forall (fun o => is_Some (cfg !! ("redshift", o)))
                      credential_options)) as [Hall | Hsome].
  - left. intros opt Hopt. by apply (proj1 (Forall_forall _ _) Hall).
  - right. apply not_Forall_Exists in Hsome; [| apply _].
    apply Exists_exists in Hsome as Hwitness. clear Hwitness.
    unfold credential_options in Hsome, Hmember.
    unfold CopyToRedshiftTask.redshift_credentials, mbind, configuration.M_bind,
      configuration.get_config, configuration.get, mret, configuration.M_ret.
    do 7 (apply Forall_cons in Hmember as [Hopt Hmember];
          match type of Hopt with
          | ?o ∈ _ =>
              destruct (cfg !! ("redshift", o)) as [?|] eqn:?;
              [ apply Exists_cons in Hsome as [Hno | Hsome];
                [exfalso; apply Hno; eexists; eassumption | clear Hopt]
              | eexists o, _; split_and!;
                [exact Hopt | assumption | reflexivity] ]
          end).
    by apply Exists_nil in Hsome.
Qed.

(** X11: an access of aws_access_key_id, aws_secret_access_key, database,
    user, password or host returns a value exactly when the configuration
    has all seven options, also those the property does not return; when
    it raises, it raises the error of config.get for a missing option and
    never a KeyError on the dictionary. *)
Theorem credential_properties_need_every_option (self : CopyToRedshiftTask.t)
    (cfg : gmap (string * string) string) (tr : list configuration.event) :
  Forall (fun property : CopyToRedshiftTask.t -> configuration.M string =>
            ((exists v, (property self cfg tr).1 = configuration.Ok v)
             <-> configured cfg)
            /\ (forall e, (property self cfg tr).1 = configuration.Raise e ->
                          exists opt,
                            opt ∈ credential_options
                            /\ cfg !! ("redshift", opt) = None
                            /\ e = configuration.NoOptionError "redshift" opt))
    credential_properties.
Proof.
  unfold credential_properties.
  destruct (redshift_credentials_cases self cfg tr)
    as [Hcfg | (opt & tr' & Hopt & Hmissing & Hraise)].
  - destruct (configured_lookups cfg Hcfg)
      as (host & port & database & username & password & key & secret
          & Hhost & Hport & Hdatabase & Husername & Hpassword & Hkey & Hsecret).
    assert (Hmember : Forall (fun opt => opt ∈ credential_options) credential_options)
      by by apply Forall_forall.
    unfold credential_options at 2 in Hmember.
    repeat (apply Forall_cons in Hmember as [? Hmember]).
    repeat (apply Forall_cons; split); [| | | | | | apply Forall_nil_2].
    1: unfold CopyToRedshiftTask.aws_access_key_id.
    2: unfold CopyToRedshiftTask.aws_secret_access_key.
    3: unfold CopyToRedshiftTask.database.
    4: unfold CopyToRedshiftTask.user.
    5: unfold CopyToRedshiftTask.password.
    1-5: rewrite credential_property_run by done; unfold from_config.
    1: rewrite Hkey. 2: rewrite Hsecret. 3: rewrite Hdatabase.
    4: rewrite Husername. 5: rewrite Hpassword.
    6: rewrite (host_run self cfg tr host port) by done.
    all: simpl; split; [split; eauto | discriminate].
  - assert (Hnot : ~ configured cfg).
    { intros Hcfg. destruct (Hcfg opt Hopt) as [v Hv]. congruence. }
    repeat (apply Forall_cons; split); [| | | | | | apply Forall_nil_2].
    all: unfold CopyToRedshiftTask.aws_access_key_id,
           CopyToRedshiftTask.aws_secret_access_key, CopyToRedshiftTask.database,
           CopyToRedshiftTask.user, CopyToRedshiftTask.password,
           CopyToRedshiftTask.host, mbind, configuration.M_bind;
      rewrite Hraise; simpl; split;
      [ split; [intros [v Hv]; discriminate | contradiction]
      | intros e [= <-]; eauto ].
Qed.

(** ** The reads of the configuration, whatever it holds *)

(** The trace of one call of [redshift_credentials()], for every
    configuration. *)
Lemma redshift_credentials_trace (self : CopyToRedshiftTask.t)
    (cfg : gmap (string * string) string) (tr : list configuration.event) :
  (CopyToRedshiftTask.redshift_credentials self cfg tr).2 = tr ++ call_reads cfg.
Proof.
  unfold CopyToRedshiftTask.redshift_credentials, mbind, configuration.M_bind,
    configuration.get_config, configuration.get, mret, configuration.M_ret,
    call_reads, credential_options.
  simpl options_read.
  do 7 (match goal with
        | |- context [cfg !! ?k] => destruct (cfg !! k) as [?|]
        end; [| simpl; by rewrite <- ?app_assoc]).
  simpl. by rewrite <- ?app_assoc.
Qed.

(** Reading an entry of the dictionary a call returned adds no event. *)
Lemma getitem_trace (m : configuration.M (gmap string string))
    (key : string) (cfg : gmap (string * string) string)
    (tr : list configuration.event) :
  ((d ← m; configuration.getitem d key) cfg tr).2 = (m cfg tr).2.
Proof.
  unfold mbind, configuration.M_bind, configuration.getitem.
  by destruct (m cfg tr) as [[d|e] tr'].
Qed.

(** A call reads at least the first option and at most the seven. *)
Lemma call_reads_bounds (cfg : gmap (string * string) string) :
  (1 <= configuration.reads (call_reads cfg) <= 7)%nat.
Proof.
  unfold call_reads, credential_options. simpl options_read.
  do 7 (match goal with
        | |- context [cfg !! ?k] => destruct (cfg !! k) as [?|]
        end; [| vm_compute; lia]).
  vm_compute. lia.
Qed.

Lemma call_reads_configured (cfg : gmap (string * string) string) :
  configured cfg -> call_reads cfg = credential_reads.
Proof.
  intros Hcfg.
  destruct (configured_lookups cfg Hcfg)
    as (host & port & database & username & password & key & secret
        & Hhost & Hport & Hdatabase & Husername & Hpassword & Hkey & Hsecret).
  unfold call_reads, credential_reads, credential_options. simpl options_read.
  by rewrite Hhost, Hport, Hdatabase, Husername, Hpassword, Hkey, Hsecret.
Qed.

(** The host property makes one call, and a second when the first
    returned. *)
Lemma host_trace (self : CopyToRedshiftTask.t)
    (cfg : gmap (string * string) string) (tr : list configuration.event) :
  (CopyToRedshiftTask.host self cfg tr).2
  = tr ++ call_reads cfg
       ++ match (CopyToRedshiftTask.redshift_credentials self cfg tr).1 with
          | configuration.Ok _ => call_reads cfg
          | configuration.Raise _ => []
          end.
Proof.
  destruct (redshift_credentials_cases self cfg tr)
    as [Hcfg | (opt & tr' & _ & _ & Hraise)].
  - destruct (configured_lookups cfg Hcfg)
      as (host & port & database & username & password & key & secret
          & Hhost & Hport & Hdatabase & Husername & Hpassword & Hkey & Hsecret).
    rewrite (host_run self cfg tr host port Hcfg Hhost Hport).
    rewrite (redshift_credentials_run self cfg tr _ _ _ _ _ _ _
               Hhost Hport Hdatabase Husername Hpassword Hkey Hsecret).
    rewrite (call_reads_configured cfg Hcfg). reflexivity.
  - pose proof (redshift_credentials_trace self cfg tr) as Htrace.
    unfold CopyToRedshiftTask.host, mbind, configuration.M_bind.
    rewrite Hraise in *. simpl in *. by rewrite app_nil_r.
Qed.

(** A call returns exactly when the configuration has the seven options. *)
Lemma redshift_credentials_returns (self : CopyToRedshiftTask.t)
    (cfg : gmap (string * string) string) (tr : list configuration.event) :
  (exists d, (CopyToRedshiftTask.redshift_credentials self cfg tr).1
             = configuration.Ok d) <-> configured cfg.
Proof.
  destruct (redshift_credentials_cases self cfg tr)
    as [Hcfg | (opt & tr' & Hopt & Hmissing & Hraise)].
  - destruct (configured_lookups cfg Hcfg)
      as (host & port & database & username & password & key & secret
          & Hhost & Hport & Hdatabase & Husername & Hpassword & Hkey & Hsecret).
    rewrite (redshift_credentials_run self cfg tr _ _ _ _ _ _ _
               Hhost Hport Hdatabase Husername Hpassword Hkey Hsecret).
    split; eauto.
  - rewrite Hraise. simpl. split.
    + intros [d Hd]. discriminate.
    + intros Hcfg. destruct (Hcfg opt Hopt) as [v Hv]. congruence.
Qed.

(** C5, amended: constructing the load task reads no configuration.  For
    every configuration, each call of redshift_credentials() asks for the
    configuration and reads the options of section redshift in the order
    host, port, database, username, password, aws_access_key_id,
    aws_secret_access_key, up to and including the first one that is
    missing: at least one read and at most seven, and each of the seven
    once when none is missing, which is when the call returns.  Each
    access of aws_access_key_id, aws_secret_access_key, database, user or
    password makes exactly one such call; each access of host makes one,
    and a second one when the first returned. *)
Theorem configuration_reads_per_access (self : CopyToRedshiftTask.t)
    (cfg : gmap (string * string) string) (tr : list configuration.event) :
  (CopyToRedshiftTask.construct (CopyToRedshiftTask.input_base_path self)
     (CopyToRedshiftTask.output_base_path self)
     (CopyToRedshiftTask.table_name self) cfg tr
   = (configuration.Ok self, tr))
  /\ (CopyToRedshiftTask.redshift_credentials self cfg tr).2 = tr ++ call_reads cfg
  /\ (CopyToRedshiftTask.aws_access_key_id self cfg tr).2 = tr ++ call_reads cfg
  /\ (CopyToRedshiftTask.aws_secret_access_key self cfg tr).2 = tr ++ call_reads cfg
  /\ (CopyToRedshiftTask.database self cfg tr).2 = tr ++ call_reads cfg
  /\ (CopyToRedshiftTask.user self cfg tr).2 = tr ++ call_reads cfg
  /\ (CopyToRedshiftTask.password self cfg tr).2 = tr ++ call_reads cfg
  /\ (CopyToRedshiftTask.host self cfg tr).2
     = tr ++ call_reads cfg
          ++ match (CopyToRedshiftTask.redshift_credentials self cfg tr).1 with
             | configuration.Ok _ => call_reads cfg
             | configuration.Raise _ => []
             end
  /\ (1 <= configuration.reads (call_reads cfg) <= 7)%nat
  /\ ((exists d, (CopyToRedshiftTask.redshift_credentials self cfg tr).1
                 = configuration.Ok d) <-> configured cfg)
  /\ (configured cfg -> call_reads cfg = credential_reads)
  /\ Forall (fun opt => configuration.reads_of "redshift" opt credential_reads = 1%nat)
       credential_options.
Proof.
  assert (Hproperty : forall key,
             ((d ← CopyToRedshiftTask.redshift_credentials self;
               configuration.getitem d key) cfg tr).2 = tr ++ call_reads cfg).
  { intros key. by rewrite getitem_trace, redshift_credentials_trace. }
  split; [by destruct self |].
  split; [apply redshift_credentials_trace |].
  do 5 (split; [apply Hproperty |]).
  split; [apply host_trace |].
  split; [apply call_reads_bounds |].
  split; [apply redshift_credentials_returns |].
  split; [apply call_reads_configured |].
  unfold credential_options. repeat (apply Forall_cons; split; [reflexivity |]).
  apply Forall_nil_2.
Qed.

(** On a configuration that has host, port, database, username and
    password and no AWS keys, an access of password raises after six
    reads and an access of host makes one call, not two; on the full
    configuration host makes fourteen reads, on an empty one a single
    read. *)
Lemma configuration_reads_per_access_witness :
  let self := {| CopyToRedshiftTask.table_name := "pageviews";
                 CopyToRedshiftTask.output_base_path := "s3://out";
                 CopyToRedshiftTask.input_base_path := "s3://in" |} in
  let cfg : gmap (string * string) string :=
    list_to_map
      [ (("redshift", "host"), "example.redshift.amazonaws.com");
        (("redshift", "port"), "5439");
        (("redshift", "database"), "wiki");
        (("redshift", "username"), "master");
        (("redshift", "password"), "secret") ] in
  configuration.reads (CopyToRedshiftTask.password self cfg []).2 = 6%nat
  /\ configuration.reads (CopyToRedshiftTask.host self cfg []).2 = 6%nat
  /\ configuration.reads (CopyToRedshiftTask.host self example_config []).2 = 14%nat
  /\ configuration.reads (CopyToRedshiftTask.host self ∅ []).2 = 1%nat.
Proof.
  intros self cfg.
  destruct (configuration_reads_per_access self cfg [])
    as (_ & _ & _ & _ & _ & _ & Hpassword & Hhost & _).
  destruct (configuration_reads_per_access self example_config [])
    as (_ & _ & _ & _ & _ & _ & _ & Hhost_full & _).
  destruct (configuration_reads_per_access self ∅ [])
    as (_ & _ & _ & _ & _ & _ & _ & Hhost_empty & _).
  rewrite Hpassword, Hhost, Hhost_full, Hhost_empty.
  vm_compute. by split_and!.
Defined.
